(** * profiling_examples.py: defensive checks, timing and profiling demos

    A shallow embedding of [src/profiling_examples.py].  Python floats are
    binary64 values ([PrimFloat.float]), Python ints are [Z], the module's
    global namespace is a finite map from names to objects, and a routine is a
    computation that emits a trace of observable events (lines printed, calls
    into external facilities) and either returns or raises. *)

From Stdlib Require Import ZArith QArith Floats Ascii String List Sorted.
From stdpp Require Import base gmap strings list.

Set Warnings "-inexact-float".
Local Open Scope string_scope.
Local Open Scope Z_scope.
Local Open Scope list_scope.

(** ** Values, exceptions and observable events *)

Inductive pyexc :=
| AssertionError (msg : string)
| ModuleNotFoundError (module : string)
| OtherException (descr : string).

(** A piece of an f-string: literal text, or a float rendered with a fixed
    number of decimals ([{x:.6f}]). *)
Inductive fpart :=
| FLit (s : string)
| FFixed (digits : nat) (x : float).

(** What [print] receives.  Numbers are kept as values rather than rendered,
    so that equality of printed lines is equality of the values printed.
    [VRow] is one line of a profile report. *)
Inductive pyval :=
| VStr (s : string)
| VInt (z : Z)
| VFloat (x : float)
| VExc (e : pyexc)
| VFormat (parts : list fpart)
| VRow (file : string) (line : Z) (name : string)
       (ncalls : Z) (tottime : float) (cumtime : float).

Inductive event :=
| EPrint (args : list pyval)
| ECall (facility : string) (operation : string).

Inductive outcome (A : Type) :=
| Ret (a : A)
| Raise (e : pyexc).
Arguments Ret {A} a.
Arguments Raise {A} e.

(** A computation: the events it emitted, in order, and how it ended. *)
Definition Py (A : Type) : Type := list event * outcome A.

#[global] Instance Py_ret : MRet Py := λ A a, ([], Ret a).
#[global] Instance Py_bind : MBind Py := λ A B f m,
  match m with
  | (tr, Ret a) => let '(tr', r) := f a in (tr ++ tr', r)
  | (tr, Raise e) => (tr, Raise e)
  end.

Definition raise {A} (e : pyexc) : Py A := ([], Raise e).
Definition print (args : list pyval) : Py unit := ([EPrint args], Ret tt).
Definition call_ext (facility operation : string) : Py unit :=
  ([ECall facility operation], Ret tt).

(** [try: body / except Exception as e: handler e], where the handler ends
    the function and [rest] is what follows the [try] statement. *)
Definition try_except {A B} (body : Py A) (handler : pyexc → Py B) (rest : A → Py B) : Py B :=
  match body with
  | (tr, Ret a) => let '(tr', r) := rest a in (tr ++ tr', r)
  | (tr, Raise e) => let '(tr', r) := handler e in (tr ++ tr', r)
  end.

(** [for x in xs: body x] for a body with effects. *)
Definition for_ {A} (xs : list A) (body : A → Py unit) : Py unit :=
  foldr (λ x k, body x;; k) (mret tt) xs.

Definition trace {A} (m : Py A) : list event := m.1.
Definition result {A} (m : Py A) : outcome A := m.2.

(** The lines written to standard output, in order. *)
Definition stdout {A} (m : Py A) : list (list pyval) :=
  omap (λ ev, match ev with EPrint args => Some args | ECall _ _ => None end) (trace m).

(** Calls made into one external facility. *)
Definition uses {A} (facility : string) (m : Py A) : list string :=
  omap (λ ev, match ev with
              | ECall f op => if decide (f = facility) then Some op else None
              | EPrint _ => None
              end) (trace m).

(** Process exit status when [m] is the whole program: an uncaught exception
    ends the interpreter with status 1. *)
Definition exit_status {A} (m : Py A) : Z :=
  match result m with Ret _ => 0 | Raise _ => 1 end.

(** ** Python built-ins used by the routines *)

(** [range(n)] *)
Definition range (n : Z) : list Z := seqZ 0 n.

(** [sum(xs)] over ints *)
Definition sum_ints (xs : list Z) : Z := fold_left Z.add xs 0.

(** A [for] loop over a list, threading the loop-carried variable. *)
Definition for_each {A S : Type} (xs : list A) (init : S) (body : S → A → S) : S :=
  fold_left body xs init.

(** [a / b] on ints (true division); exact conversion below 2^53. *)
Definition true_div (a b : Z) : float :=
  (PrimFloat.of_uint63 (Uint63.of_Z a) / PrimFloat.of_uint63 (Uint63.of_Z b))%float.

(** ** The mathematical value of a float *)

(** The rational number a finite binary64 value stands for, in lowest terms;
    [None] for infinities and NaN. *)
Definition float_value (x : float) : option Q :=
  match Prim2SF x with
  | S754_zero _ => Some 0%Q
  | S754_finite s m e => Some (Qred (inject_Z (cond_Zopp s (Z.pos m)) * Qpower 2 e))
  | S754_infinity _ | S754_nan => None
  end.

(** The sum of the elements as rational numbers, without any rounding. *)
Fixpoint exact_sum (numbers : list float) : option Q :=
  match numbers with
  | [] => Some 0%Q
  | n :: rest => v ← float_value n; s ← exact_sum rest; Some (Qred (v + s))
  end.

(** ** The environment: what the interpreter and the optional packages supply *)

(** Objects that are not callable: strings, [None], modules, plain instances. *)
Inductive pydata :=
| DStr (s : string)
| DNone
| DModule (name : string)
| DInstance (class : string).

(** An object bound in the module namespace. *)
Inductive pyobj :=
| PyFunction (name : string) (body : Py unit)
| PyData (d : pydata).

(** [callable(fn)] *)
Definition callable (o : option pyobj) : bool :=
  match o with
  | Some (PyFunction _ _) => true
  | Some (PyData _) | None => false
  end.

(** A function as the profiler identifies it: file, line, name. *)
Definition func : Type := string * Z * string.

(** One entry of a profile, the tuple [(cc, nc, tt, ct)]: primitive call
    count, call count, total time, cumulative time. *)
Record func_stat := FuncStat { st_cc : Z; st_nc : Z; st_tt : float; st_ct : float }.

Record env := Env {
  (** [from memory_profiler import profile]: the exception the import raises,
      or the decorator *)
  import_memory_profiler : pyexc + (Py Z → Py Z);
  (** [import psutil]: the exception, or the resident set size in bytes that
      the i-th [memory_info()] of this process reports *)
  import_psutil : pyexc + (nat → Z);
  (** the i-th reading of [time.perf_counter()] *)
  perf_counter : nat → float;
  (** what [cProfile.Profile] recorded while [work_profile] ran *)
  profile_stats : gmap func func_stat;
  (** [str] of the entries of [snap2.statistics("lineno")] and of
      [snap2.compare_to(snap1, "lineno")], in the order returned *)
  snapshot_statistics : list string;
  snapshot_compare_to : list string;
  (** the namespace the module starts to run in: the names the interpreter
      binds for a script ([__name__], [__builtins__], [__file__], ...) and
      whatever a launcher such as [python -m memory_profiler] leaves there *)
  initial_globals : gmap string pyobj;
}.

(** ** assertion_example *)

Definition assertion_message : string :=
  "Les dades han de contenir només valors positius".

(** [n >= 0.0], the condition of the [assert]; assertions are taken to be
    enabled, as they are unless the interpreter is started with [-O]. *)
Definition assertion_guard (n : float) : bool := PrimFloat.leb 0%float n.

(** How the [for] loop stops: the sequence is exhausted, or the [assert]
    failed on [n] with [total] accumulated so far and [rest] still unread. *)
Inductive loop_end :=
| Exhausted (total : float)
| AssertFailed (total : float) (n : float) (rest : list float).

Fixpoint assertion_loop (numbers : list float) (total : float) : loop_end :=
  match numbers with
  | [] => Exhausted total
  | n :: rest =>
      if assertion_guard n then assertion_loop rest (total + n)%float
      else AssertFailed total n rest
  end.

(** The body of [assertion_example] for a given [numbers]. *)
Definition assertion_example_on (numbers : list float) : Py unit :=
  match assertion_loop numbers 0%float with
  | Exhausted total => print [VStr "total és:"; VFloat total]
  | AssertFailed _ _ _ => raise (AssertionError assertion_message)
  end.

Definition numbers : list float := [1.5; 2.3; 0.7; -0.001; 4.4]%float.

Definition assertion_example : Py unit := assertion_example_on numbers.

(** ** timing_example *)

Definition work_timing : Z := sum_ints ((λ i, i * i) <$> range 100000).

Definition timing_example (E : env) : Py unit :=
  call_ext "time" "perf_counter";;
  let t0 := perf_counter E 0 in
  let _ := work_timing in
  call_ext "time" "perf_counter";;
  let t1 := perf_counter E 1 in
  print [VFormat [FLit "Temps: "; FFixed 6 (t1 - t0)%float; FLit " s"]].

(** ** pstats: the part of the profiler report that [cprofile_example] drives

    [pstats] is Python's standard library; its code is not part of the
    repository.  [cprofile_example] only chooses the sort key and the number
    of entries, so what the report looks like is decided there.  The spec
    says of the routine that it "aggregates results, sorts by cumulative
    time, and prints the top entries"; the definitions of [Pstats] give
    [Stats.strip_dirs], [Stats.sort_stats] and [Stats.print_stats] that
    meaning, step by step as the library takes them.  A [Stats] object keeps
    its entries in a dictionary; the order in which a dictionary is
    enumerated only decides between entries with equal cumulative times. *)

Section StableSort.
Context {A : Type} (before : A → A → bool).

(** [x] comes from the left of everything in [l]: it goes in front of the
    first element that is not strictly before it. *)
Fixpoint insert_stable (x : A) (l : list A) : list A :=
  match l with
  | [] => [x]
  | y :: l' => if before y x then y :: insert_stable x l' else x :: l
  end.

(** [list.sort] with a comparison function: a stable sort. *)
Definition stable_sort (l : list A) : list A := foldr insert_stable [] l.

(** [a] may stand in front of [b]: [b] is not strictly before [a]. *)
Definition in_order (a b : A) : Prop := before b a = false.
End StableSort.

Module Pstats.

Record Stats := MkStats {
  stats : gmap func func_stat;
  fcn_list : option (list func);
}.

(** [pstats.Stats(pr)] *)
Definition load (pr : gmap func func_stat) : Stats :=
  {| stats := pr; fcn_list := None |}.

(** [os.path.basename]: what follows the last slash. *)
Fixpoint basename_from (acc s : string) : string :=
  match s with
  | EmptyString => acc
  | String c s' =>
      if Ascii.eqb c "/"%char then basename_from EmptyString s'
      else basename_from (acc +:+ String c EmptyString) s'
  end.
Definition basename (s : string) : string := basename_from EmptyString s.

Definition func_strip_path (f : func) : func :=
  let '(file, line, name) := f in (basename file, line, name).

Definition add_func_stats (target source : func_stat) : func_stat :=
  {| st_cc := st_cc source + st_cc target; st_nc := st_nc source + st_nc target;
     st_tt := (st_tt source + st_tt target)%float;
     st_ct := (st_ct source + st_ct target)%float |}.

(** Modelled from the spec: [Stats.strip_dirs] of the standard library,
    "aggregates results": directories are dropped from the file names and
    entries whose names then coincide are merged. *)
Definition strip_dirs (S : Stats) : Stats :=
  {| stats :=
       map_fold (λ f st newstats,
                   let newfunc := func_strip_path f in
                   match newstats !! newfunc with
                   | Some old => <[newfunc := add_func_stats old st]> newstats
                   | None => <[newfunc := st]> newstats
                   end) ∅ (stats S);
     fcn_list := None |}.

(** The comparison [TupleComp] makes for the key "cumtime", which selects the
    cumulative time with direction [-1]. *)
Definition compare_cumtime (left right : func * func_stat) : Z :=
  let direction := -1 in
  if (st_ct left.2 <? st_ct right.2)%float then - direction
  else if (st_ct right.2 <? st_ct left.2)%float then direction
  else 0.

(** Modelled from the spec: [Stats.sort_stats("cumtime")] of the standard
    library, "sorts by cumulative time": the entries are sorted, stably, with
    the comparison above, and the sorted names are kept. *)
Definition sort_stats_cumtime (S : Stats) : Stats :=
  {| stats := stats S;
     fcn_list :=
       Some (stable_sort (λ a b, compare_cumtime a b <? 0) (map_to_list (stats S))).*1 |}.

(** [get_print_list] with one integer restriction: the first [amount] names. *)
Definition get_print_list (amount : nat) (S : Stats) : list func :=
  take amount (default (map_to_list (stats S)).*1 (fcn_list S)).

Definition print_line (S : Stats) (f : func) : Py unit :=
  match stats S !! f with
  | Some st => print [VRow f.1.1 f.1.2 f.2 (st_nc st) (st_tt st) (st_ct st)]
  | None => raise (OtherException "KeyError")
  end.

Definition print_title : Py unit :=
  print [VStr "   ncalls  tottime  percall  cumtime  percall filename:lineno(function)"].

(** Modelled from the spec: [Stats.print_stats(amount)] of the standard
    library, "prints the top entries": a summary, the ordering, then the
    title and one line per listed function. *)
Definition print_stats (amount : nat) (S : Stats) : Py unit :=
  let total_calls := map_fold (λ _ st acc, acc + st_nc st) 0 (stats S) in
  print [VInt total_calls; VStr "function calls"];;
  print [VStr (match fcn_list S with
               | Some _ => "   Ordered by: cumulative time"
               | None => "   Random listing order was used"
               end)];;
  let list := get_print_list amount S in
  (if list is [] then mret tt else print_title);;
  for_ list (print_line S).

End Pstats.

(** ** cprofile_example *)

Definition work_profile : Z := sum_ints ((λ i, i * i) <$> range 100000).

Definition cprofile_example (E : env) : Py unit :=
  call_ext "cProfile" "Profile";;
  let _ := work_profile in
  let pr := profile_stats E in
  let stats := Pstats.sort_stats_cumtime (Pstats.strip_dirs (Pstats.load pr)) in
  Pstats.print_stats 10 stats.

(** The report lines of a run: the rows printed, in order. *)
Definition report_rows {A} (m : Py A) : list (string * Z * string * float) :=
  omap (λ line, match line with
                | [VRow file l name _ _ cumtime] => Some (file, l, name, cumtime)
                | _ => None
                end) (stdout m).

(** ** tracemalloc_example *)

(** The newline character. *)
Definition nl : string := String "010"%char EmptyString.

Definition allocate_data : Z :=
  let data := range 300000 in
  let mapping : gmap Z Z := list_to_map ((λ i, (i, i * 2)) <$> range 150000) in
  Z.of_nat (length data) + Z.of_nat (size mapping).

Definition tracemalloc_example (E : env) : Py unit :=
  call_ext "tracemalloc" "start";;
  call_ext "tracemalloc" "take_snapshot";;
  let _ := allocate_data in
  call_ext "tracemalloc" "take_snapshot";;
  print [VStr "TOP línies per bytes (snapshot 2):"];;
  for_ (take 10 (snapshot_statistics E)) (λ stat, print [VStr stat]);;
  print [VStr (nl +:+ "Diferències (snap2 - snap1):")];;
  for_ (take 10 (snapshot_compare_to E)) (λ stat, print [VStr stat]).

(** ** memory_profiler_example and memory_profiler_eficient_example *)

(** [from memory_profiler import profile]: raises what the import raises;
    the decorator it binds records that the package's profiler ran. *)
Definition from_memory_profiler_import_profile (E : env) : Py (Py Z → Py Z) :=
  match import_memory_profiler E with
  | inl e => raise e
  | inr profile => mret (λ f, call_ext "memory_profiler" "profile";; profile f)
  end.

(** The inner [work] of [memory_profiler_example]. *)
Definition work_lists : Z :=
  let data := range 500000 in
  let doubled := (λ x, x * 2) <$> data in
  sum_ints doubled.

(** The inner [work] of [memory_profiler_eficient_example]. *)
Definition work_single_loop : Z :=
  for_each (range 500000) 0 (λ total i, total + i * 2).

Definition memory_profiler_example (E : env) : Py unit :=
  try_except (from_memory_profiler_import_profile E)
    (λ e,
       print [VStr "⚠️  memory_profiler no està disponible:"; VExc e];;
       print [VStr "Instal·la-la amb: pip install memory_profiler"])
    (λ profile,
       let work := profile (mret work_lists) in
       result ← work;
       print [VStr "Resultat:"; VInt result]).

Definition memory_profiler_eficient_example (E : env) : Py unit :=
  profile ← try_except (from_memory_profiler_import_profile E)
               (λ _, mret (λ func : Py Z, func))
               mret;
  let work := profile (mret work_single_loop) in
  result ← work;
  print [VStr "Resultat (single-loop):"; VInt result].

(** ** psutil_rss_example *)

Definition import_psutil_module (E : env) : Py (nat → Z) :=
  match import_psutil E with
  | inl e => raise e
  | inr rss => mret rss
  end.

Definition psutil_rss_example (E : env) : Py unit :=
  try_except (import_psutil_module E)
    (λ e,
       print [VStr "⚠️  psutil no està disponible:"; VExc e];;
       print [VStr "Instal·la-la amb: pip install psutil"])
    (λ rss,
       call_ext "os" "getpid";;
       call_ext "psutil" "Process";;
       let rss_mb (i : nat) : Py float :=
         call_ext "psutil" "memory_info";;
         mret (true_div (rss i) (1024 * 1024)) in
       r0 ← rss_mb 0%nat;
       print [VFormat [FLit "RSS inicial: "; FFixed 1 r0; FLit " MB"]];;
       let data := range 300000 in
       call_ext "time" "sleep";;
       r1 ← rss_mb 1%nat;
       print [VFormat [FLit "RSS després d'allocar: "; FFixed 1 r1; FLit " MB"]];;
       call_ext "time" "sleep";;
       r2 ← rss_mb 2%nat;
       print [VFormat [FLit "RSS final: "; FFixed 1 r2; FLit " MB"]]).

(** ** The dispatcher *)

Definition fns : list string :=
  [ "assertion_example";
    "timing_example";
    "cprofile_example";
    "tracemalloc_example";
    "memory_profiler_example";
    "memory_profiler_eficient_example";
    "psutil_rss_example" ].

Definition _list_functions : Py unit :=
  print [VStr "Funcions disponibles:"];;
  for_ fns (λ name, print [VStr "  -"; VStr name]).

(** [globals()] when the lookup runs: the namespace the module started in,
    then every module-level binding in the order the module executed it. *)
Definition module_globals (E : env) : gmap string pyobj :=
  <["args" := PyData (DInstance "Namespace")]> $
  <["parser" := PyData (DInstance "ArgumentParser")]> $
  <["argparse" := PyData (DModule "argparse")]> $
  <["_list_functions" := PyFunction "_list_functions" _list_functions]> $
  <["psutil_rss_example" := PyFunction "psutil_rss_example" (psutil_rss_example E)]> $
  <["memory_profiler_eficient_example" :=
      PyFunction "memory_profiler_eficient_example" (memory_profiler_eficient_example E)]> $
  <["memory_profiler_example" :=
      PyFunction "memory_profiler_example" (memory_profiler_example E)]> $
  <["tracemalloc_example" := PyFunction "tracemalloc_example" (tracemalloc_example E)]> $
  <["cprofile_example" := PyFunction "cprofile_example" (cprofile_example E)]> $
  <["timing_example" := PyFunction "timing_example" (timing_example E)]> $
  <["assertion_example" := PyFunction "assertion_example" assertion_example]> $
  <["annotations" := PyData (DInstance "_Feature")]> $
  initial_globals E.

(** [fn()] *)
Definition call (fn : option pyobj) : Py unit :=
  match fn with
  | Some (PyFunction _ body) => body
  | Some (PyData _) | None => raise (OtherException "TypeError")
  end.

(** The three ways through the [__main__] block. *)
Inductive branch :=
| ListBranch
| CallBranch (fn : option pyobj)
| NotFoundBranch (name : string).

(** Which branch runs; [func] is [args.func], [None] when the flag is not
    given.  [not args.func] holds for [None] and for the empty string. *)
Definition select (E : env) (func : option string) : branch :=
  match func with
  | None => ListBranch
  | Some name =>
      if decide (name = "") then ListBranch
      else
        let fn := module_globals E !! name in
        if callable fn then CallBranch fn else NotFoundBranch name
  end.

Definition exec (b : branch) : Py unit :=
  match b with
  | ListBranch => _list_functions
  | CallBranch fn => call fn
  | NotFoundBranch name =>
      print [VStr ("Funció no trobada: " +:+ name +:+ nl)];;
      _list_functions
  end.

(** The [__main__] block. *)
Definition main (E : env) (func : option string) : Py unit :=
  exec (select E func).

(** ** Notions the properties are stated with *)

(** The names bound by a [def] at module level. *)
Definition defined_functions : list string := fns ++ ["_list_functions"].

(** What [_list_functions] emits: the heading and the seven names. *)
Definition listing : list event :=
  [ EPrint [VStr "Funcions disponibles:"];
    EPrint [VStr "  -"; VStr "assertion_example"];
    EPrint [VStr "  -"; VStr "timing_example"];
    EPrint [VStr "  -"; VStr "cprofile_example"];
    EPrint [VStr "  -"; VStr "tracemalloc_example"];
    EPrint [VStr "  -"; VStr "memory_profiler_example"];
    EPrint [VStr "  -"; VStr "memory_profiler_eficient_example"];
    EPrint [VStr "  -"; VStr "psutil_rss_example"] ].

(** The event [print_line] emits for an entry. *)
Definition row_event (p : func * func_stat) : event :=
  EPrint [VRow p.1.1.1 p.1.1.2 p.1.2 (st_nc p.2) (st_tt p.2) (st_ct p.2)].

(** The entries [cprofile_example] lists: the aggregated profile, sorted,
    cut to ten. *)
Definition top_entries (E : env) : list (func * func_stat) :=
  take 10
    (stable_sort (λ a b, Pstats.compare_cumtime a b <? 0)
       (map_to_list (Pstats.stats (Pstats.strip_dirs (Pstats.load (profile_stats E)))))).

(** What the package promises of its decorator: the decorated function
    returns what the function returns, whatever it reports on the way. *)
Definition returns_value_of_function (profile : Py Z → Py Z) : Prop :=
  ∀ (f : Py Z) (tr : list event) (v : Z),
    f = (tr, Ret v) → ∃ tr', profile f = (tr', Ret v).

(** A position in the order of the non-NaN values: class (negative infinity,
    negative, zero, positive, positive infinity), then exponent, then
    mantissa, the last two reversed below zero. *)
Definition sf_key (x : spec_float) : Z * Z * Z :=
  match x with
  | S754_zero _ | S754_nan => (0, 0, 0)
  | S754_infinity s => (if s then -2 else 2, 0, 0)
  | S754_finite s m e => if s then (-1, - e, - Z.pos m) else (1, e, Z.pos m)
  end.

Definition key_lt (a b : Z * Z * Z) : Prop :=
  a.1.1 < b.1.1
  ∨ (a.1.1 = b.1.1 ∧ (a.1.2 < b.1.2 ∨ (a.1.2 = b.1.2 ∧ a.2 < b.2))).



(** The namespace the module starts in holds nothing callable, as when the
    script is run directly. *)
Definition no_callable_at_start (E : env) : Prop :=
  ∀ name, callable (initial_globals E !! name) = false.

(** If memory_profiler is installed, a function it decorates returns when
    the function does. *)
Definition profiler_returns (E : env) : Prop :=
  ∀ profile, import_memory_profiler E = inr profile →
    ∀ (f : Py Z) (tr : list event) (v : Z),
      f = (tr, Ret v) → ∃ tr' v', profile f = (tr', Ret v').

(** The profile [cprofile_example] sorts: what was recorded, directories
    stripped. *)
Definition aggregated_profile (E : env) : gmap func func_stat :=
  Pstats.stats (Pstats.strip_dirs (Pstats.load (profile_stats E))).

(** A value that is zero or finite. *)
Definition sf_finite (x : spec_float) : bool :=
  match x with
  | S754_zero _ | S754_finite _ _ _ => true
  | S754_infinity _ | S754_nan => false
  end.

(** ** Sample environments *)

(** A plain run of the script: neither optional package is installed, and
    the namespace starts with the names the interpreter binds. *)
Definition script_env : env :=
  {| import_memory_profiler := inl (ModuleNotFoundError "memory_profiler");
     import_psutil := inl (ModuleNotFoundError "psutil");
     perf_counter := λ i, match i with O => 1.25%float | _ => 1.5%float end;
     profile_stats := ∅;
     snapshot_statistics := [];
     snapshot_compare_to := [];
     initial_globals :=
       PyData <$>
         list_to_map
           [ ("__name__", DStr "__main__");
             ("__doc__", DStr "profiling_examples.py");
             ("__package__", DNone);
             ("__loader__", DInstance "SourceFileLoader");
             ("__spec__", DNone);
             ("__builtins__", DModule "builtins");
             ("__file__", DStr "profiling_examples.py");
             ("__cached__", DNone) ] |}.

(** A run with memory_profiler installed: its decorator reports, then runs
    the function. *)
Definition profiled_env : env :=
  {| import_memory_profiler :=
       inr (λ f, print [VStr "Line #    Mem usage    Increment"];; f);
     import_psutil := import_psutil script_env;
     perf_counter := perf_counter script_env;
     profile_stats := profile_stats script_env;
     snapshot_statistics := snapshot_statistics script_env;
     snapshot_compare_to := snapshot_compare_to script_env;
     initial_globals := initial_globals script_env |}.

(** A profile of twelve functions, and a run that records it. *)
Definition sample_profile : gmap func func_stat :=
  list_to_map
    (imap (λ i t, (("/src/f" +:+ String (ascii_of_nat (97 + i)) ".py", 1, "work"),
                   FuncStat 1 1 t t))
       [0.25; 4; 0.5; 3; 0.125; 9; 1; 7; 2; 0.75; 5; 6]%float).

Definition profiling_env : env :=
  {| import_memory_profiler := import_memory_profiler script_env;
     import_psutil := import_psutil script_env;
     perf_counter := perf_counter script_env;
     profile_stats := sample_profile;
     snapshot_statistics := snapshot_statistics script_env;
     snapshot_compare_to := snapshot_compare_to script_env;
     initial_globals := initial_globals script_env |}.

(** ** Notions the further properties are stated with *)

(** A value that is zero, positive or positive infinity. *)
Definition sf_nonneg (x : spec_float) : bool :=
  match x with
  | S754_zero _ | S754_infinity false | S754_finite false _ _ => true
  | S754_infinity true | S754_finite true _ _ | S754_nan => false
  end.


(** A run with a memory_profiler whose decorated function fails. *)
Definition failing_profiler_env : env :=
  {| import_memory_profiler :=
       inr (λ _, print [VStr "Line #    Mem usage    Increment"];;
                 raise (OtherException "MemoryError"));
     import_psutil := import_psutil script_env;
     perf_counter := perf_counter script_env;
     profile_stats := profile_stats script_env;
     snapshot_statistics := snapshot_statistics script_env;
     snapshot_compare_to := snapshot_compare_to script_env;
     initial_globals := initial_globals script_env |}.

(** A run whose second snapshot has twelve lines to report and whose
    comparison has three. *)
Definition traced_env : env :=
  {| import_memory_profiler := import_memory_profiler script_env;
     import_psutil := import_psutil script_env;
     perf_counter := perf_counter script_env;
     profile_stats := profile_stats script_env;
     snapshot_statistics :=
       (λ i, "profiling_examples.py:" +:+ String (ascii_of_nat (97 + i)) "")
         <$> seq 0 12;
     snapshot_compare_to := ["a"; "b"; "c"];
     initial_globals := initial_globals script_env |}.

(** * Properties *)

(** ** The defensive-check routine *)

(** C1: on its fixed sequence, which holds exactly one negative value,
    [assertion_example] stops at that value with an assertion failure: the
    three elements before it were added, giving the total 1.5 + 2.3 + 0.7
    (which is 4.5), the element after it is still unread, nothing was printed
    and the exception reaches the top level. *)
Theorem assertion_example_aborts_at_negative :
  filter (λ n, (n <? 0)%float = true) numbers = [(-0.001)%float]
  ∧ assertion_loop numbers 0%float
    = AssertFailed (1.5 + 2.3 + 0.7)%float (-0.001)%float [4.4%float]
  ∧ (1.5 + 2.3 + 0.7)%float = 4.5%float
  ∧ float_value (1.5 + 2.3 + 0.7)%float = Some (9 # 2)%Q
  ∧ assertion_example = ([], Raise (AssertionError assertion_message))
  ∧ stdout assertion_example = []
  ∧ exit_status assertion_example = 1.
Proof. repeat split; vm_compute; reflexivity. Qed.

Lemma assertion_loop_all_pass (numbers : list float) (total : float) :
  Forall (λ n, assertion_guard n = true) numbers →
  assertion_loop numbers total = Exhausted (fold_left PrimFloat.add numbers total).
Proof.
  intros Hall. revert total.
  induction Hall as [|n rest Hn _ IH]; intros total; simpl.
  - reflexivity.
  - rewrite Hn. apply IH.
Qed.

(** C2, as amended: when every element passes the guard, the loop runs to the
    end, nothing is raised, and the one line printed carries the elements
    added in order, in binary64 arithmetic, starting from 0.0. *)
Theorem assertion_nonnegative_prints_float_sum (numbers : list float) :
  Forall (λ n, assertion_guard n = true) numbers →
  assertion_example_on numbers
  = ([EPrint [VStr "total és:"; VFloat (fold_left PrimFloat.add numbers 0%float)]],
     Ret tt).
Proof.
  intros Hall. unfold assertion_example_on.
  rewrite (assertion_loop_all_pass _ _ Hall). reflexivity.
Qed.

Lemma assertion_nonnegative_prints_float_sum_witness :
  Forall (λ n, assertion_guard n = true) [1.5; 2.3; 0.7; 4.4]%float
  ∧ assertion_example_on [1.5; 2.3; 0.7; 4.4]%float
    = ([EPrint [VStr "total és:";
                VFloat (fold_left PrimFloat.add [1.5; 2.3; 0.7; 4.4]%float 0%float)]],
       Ret tt).
Proof.
  assert (H : Forall (λ n, assertion_guard n = true) [1.5; 2.3; 0.7; 4.4]%float)
    by (repeat constructor).
  split; [exact H | exact (assertion_nonnegative_prints_float_sum _ H)].
Defined.

(** C2, as stated, fails: 1e16 and 1.0 are both non-negative and both exact
    binary64 values; their sum is 10000000000000001, but the addition rounds
    and the total printed is 1e16. *)
Lemma assertion_total_is_not_exact_sum :
  Forall (λ n, assertion_guard n = true) [1e16; 1]%float
  ∧ assertion_example_on [1e16; 1]%float
    = ([EPrint [VStr "total és:"; VFloat 1e16%float]], Ret tt)
  ∧ float_value 1e16%float = Some (10000000000000000 # 1)%Q
  ∧ exact_sum [1e16; 1]%float = Some (10000000000000001 # 1)%Q
  ∧ float_value 1e16%float ≠ exact_sum [1e16; 1]%float.
Proof.
  split; [repeat constructor|].
  split; [vm_compute; reflexivity|].
  split; [vm_compute; reflexivity|].
  split; [vm_compute; reflexivity|].
  vm_compute. discriminate.
Qed.

(** Adding 0.0 leaves a float as it is, except that it turns -0.0 into 0.0. *)
Lemma float_add_zero (x : float) :
  (x + 0)%float = x ∨ (x = (-0)%float ∧ (x + 0)%float = 0%float).
Proof.
  assert (Hadd : Prim2SF (x + 0)%float = SF64add (Prim2SF x) (S754_zero false))
    by apply FloatAxioms.add_spec.
  destruct (Prim2SF x) as [[|]| | |] eqn:Hx; simpl in Hadd.
  - right. split.
    + apply Prim2SF_inj. rewrite Hx. reflexivity.
    + apply Prim2SF_inj. rewrite Hadd. reflexivity.
  - left. apply Prim2SF_inj. congruence.
  - left. apply Prim2SF_inj. congruence.
  - left. apply Prim2SF_inj. congruence.
  - left. apply Prim2SF_inj. congruence.
Qed.

(** C10: the guard is not strict.  0.0 passes it although 0.0 is not
    positive, the loop goes on to the next element, and the total it carries
    on is the total it had (0.0 in place of -0.0, the same number). *)
Theorem assertion_guard_accepts_zero :
  assertion_guard 0%float = true
  ∧ (0 <? 0)%float = false
  ∧ assertion_example_on [0%float] = ([EPrint [VStr "total és:"; VFloat 0%float]], Ret tt)
  ∧ assertion_example_on [(-1)%float]
    = ([], Raise (AssertionError "Les dades han de contenir només valors positius"))
  ∧ ∀ (total : float) (rest : list float),
      assertion_loop (0%float :: rest) total = assertion_loop rest (total + 0)%float
      ∧ ((total + 0)%float = total
         ∨ (total = (-0)%float ∧ (total + 0)%float = 0%float))
      ∧ float_value (total + 0)%float = float_value total.
Proof.
  do 4 (split; [reflexivity|]).
  intros total rest. split; [reflexivity|].
  pose proof (float_add_zero total) as Hz.
  split; [exact Hz|].
  destruct Hz as [-> | [-> ->]]; reflexivity.
Qed.

(** ** Optional dependencies *)

(** C4: when the import of the optional package raises, each of the two
    routines prints its warning, with the exception, and the installation
    hint, then returns; it makes no call into the package. *)
Theorem optional_dependency_missing (E : env) :
  (∀ e, import_memory_profiler E = inl e →
     memory_profiler_example E
     = ([EPrint [VStr "⚠️  memory_profiler no està disponible:"; VExc e];
         EPrint [VStr "Instal·la-la amb: pip install memory_profiler"]],
        Ret tt)
     ∧ uses "memory_profiler" (memory_profiler_example E) = []
     ∧ exit_status (memory_profiler_example E) = 0)
  ∧ (∀ e, import_psutil E = inl e →
     psutil_rss_example E
     = ([EPrint [VStr "⚠️  psutil no està disponible:"; VExc e];
         EPrint [VStr "Instal·la-la amb: pip install psutil"]],
        Ret tt)
     ∧ uses "psutil" (psutil_rss_example E) = []
     ∧ exit_status (psutil_rss_example E) = 0).
Proof.
  split; intros e He.
  - unfold memory_profiler_example, from_memory_profiler_import_profile,
      uses, exit_status.
    rewrite He. repeat split.
  - unfold psutil_rss_example, import_psutil_module, uses, exit_status.
    rewrite He. repeat split.
Qed.

Lemma optional_dependency_missing_witness :
  memory_profiler_example script_env
  = ([EPrint [VStr "⚠️  memory_profiler no està disponible:";
              VExc (ModuleNotFoundError "memory_profiler")];
      EPrint [VStr "Instal·la-la amb: pip install memory_profiler"]],
     Ret tt)
  ∧ psutil_rss_example script_env
  = ([EPrint [VStr "⚠️  psutil no està disponible:";
              VExc (ModuleNotFoundError "psutil")];
      EPrint [VStr "Instal·la-la amb: pip install psutil"]],
     Ret tt).
Proof.
  split.
  - exact (proj1 (proj1 (optional_dependency_missing script_env) _ eq_refl)).
  - exact (proj1 (proj2 (optional_dependency_missing script_env) _ eq_refl)).
Defined.

(** ** The two memory-profiling workloads *)

(** Doubling a list and summing it is one pass that adds twice each element. *)
Lemma sum_doubled_single_loop (xs : list Z) :
  sum_ints ((λ x, x * 2) <$> xs) = for_each xs 0 (λ total i, total + i * 2).
Proof.
  unfold sum_ints, for_each. generalize 0.
  induction xs as [|x xs IH]; intros a; simpl; [reflexivity|apply IH].
Qed.

Lemma single_loop_closed_form (n : nat) :
  for_each (range (Z.of_nat n)) 0 (λ total i, total + i * 2)
  = Z.of_nat n * (Z.of_nat n - 1).
Proof.
  unfold for_each, range.
  induction n as [|n IH].
  - reflexivity.
  - rewrite seqZ_S, fold_left_app, IH. simpl. lia.
Qed.

Lemma single_loop_upto (n : Z) :
  0 ≤ n → for_each (range n) 0 (λ total i, total + i * 2) = n * (n - 1).
Proof.
  intros Hn. rewrite <- (Z2Nat.id n) by exact Hn.
  apply single_loop_closed_form.
Qed.

Lemma work_single_loop_value : work_single_loop = 249999500000.
Proof.
  unfold work_single_loop.
  rewrite single_loop_upto by lia. reflexivity.
Qed.

Lemma work_lists_value : work_lists = 249999500000.
Proof.
  unfold work_lists. cbv zeta.
  rewrite sum_doubled_single_loop, single_loop_upto by lia. reflexivity.
Qed.

Lemma stdout_snoc_print {A} (tr : list event) (args : list pyval) (r : outcome A) :
  last (stdout (tr ++ [EPrint args], r)) = Some args.
Proof.
  unfold stdout, trace. simpl. rewrite omap_app. simpl. apply last_snoc.
Qed.

(** C5: both inner [work] functions return the sum of 2*i for i below
    500000, which is 249999500000, so a run of either routine that reaches
    its last line prints that number; and without the package the efficient
    variant still runs its loop and prints it. *)
Theorem memory_workloads_agree :
  work_lists = 249999500000
  ∧ work_single_loop = 249999500000
  ∧ (∀ (E : env) (e : pyexc),
       import_memory_profiler E = inl e →
       memory_profiler_eficient_example E
       = ([EPrint [VStr "Resultat (single-loop):"; VInt 249999500000]], Ret tt))
  ∧ (∀ (E : env) (profile : Py Z → Py Z),
       import_memory_profiler E = inr profile →
       returns_value_of_function profile →
       last (stdout (memory_profiler_example E))
       = Some [VStr "Resultat:"; VInt 249999500000]
       ∧ last (stdout (memory_profiler_eficient_example E))
         = Some [VStr "Resultat (single-loop):"; VInt 249999500000]).
Proof.
  split; [exact work_lists_value|].
  split; [exact work_single_loop_value|].
  split.
  - intros E e He.
    unfold memory_profiler_eficient_example, from_memory_profiler_import_profile.
    rewrite He, work_single_loop_value. reflexivity.
  - intros E profile Hp Hret.
    destruct (Hret (mret 249999500000) [] 249999500000 eq_refl) as [tr' Hrun].
    split.
    + unfold memory_profiler_example, from_memory_profiler_import_profile.
      rewrite Hp, work_lists_value. simpl. rewrite Hrun. simpl.
      exact (stdout_snoc_print (_ :: tr') _ _).
    + unfold memory_profiler_eficient_example, from_memory_profiler_import_profile.
      rewrite Hp, work_single_loop_value. simpl. rewrite Hrun. simpl.
      exact (stdout_snoc_print (_ :: tr') _ _).
Qed.

Lemma profiler_that_reports_returns_value :
  returns_value_of_function (λ f, print [VStr "Line #    Mem usage    Increment"];; f).
Proof.
  intros f tr v ->. eexists. reflexivity.
Qed.

Lemma memory_workloads_agree_witness :
  memory_profiler_eficient_example script_env
  = ([EPrint [VStr "Resultat (single-loop):"; VInt 249999500000]], Ret tt)
  ∧ last (stdout (memory_profiler_example profiled_env))
    = Some [VStr "Resultat:"; VInt 249999500000]
  ∧ last (stdout (memory_profiler_eficient_example profiled_env))
    = Some [VStr "Resultat (single-loop):"; VInt 249999500000].
Proof.
  destruct memory_workloads_agree as (_ & _ & Hmissing & Hpresent).
  split.
  - exact (Hmissing script_env _ eq_refl).
  - exact (Hpresent profiled_env _ eq_refl profiler_that_reports_returns_value).
Defined.

(** ** The dispatcher *)

(** Closes [x ∉ l] for a list of literals that does not hold [x]. *)
Ltac not_in_literals :=
  let Hin := fresh "Hin" in
  let Heq := fresh "Heq" in
  intros Hin;
  repeat (apply elem_of_cons in Hin as [Heq | Hin]; [discriminate Heq|]);
  apply elem_of_nil in Hin; exact Hin.

Ltac lookup_global :=
  unfold module_globals;
  repeat (rewrite lookup_insert_ne by discriminate);
  try rewrite lookup_insert_eq.

Lemma callable_defined_function (E : env) (name : string) :
  name ∈ defined_functions → callable (module_globals E !! name) = true.
Proof.
  intros Hin. unfold defined_functions, fns in Hin. simpl in Hin.
  repeat (apply elem_of_cons in Hin as [-> | Hin]; [lookup_global; reflexivity|]).
  apply elem_of_nil in Hin. destruct Hin.
Qed.

(** Apart from its functions the module binds only objects that are not
    callable, so any other callable was in the namespace from the start. *)
Lemma callable_elsewhere (E : env) (name : string) :
  name ∉ defined_functions →
  callable (initial_globals E !! name) = false →
  callable (module_globals E !! name) = false.
Proof.
  intros Hout Hinit. unfold defined_functions, fns in Hout. simpl in Hout.
  unfold module_globals.
  repeat (rewrite lookup_insert; case_decide;
          [subst name; first [reflexivity | exfalso; apply Hout; set_solver]|]).
  exact Hinit.
Qed.

Lemma function_names_nonempty (name : string) :
  name ∈ defined_functions → name ≠ "".
Proof.
  intros Hin ->. unfold defined_functions, fns in Hin. simpl in Hin.
  repeat (apply elem_of_cons in Hin as [Heq | Hin]; [discriminate Heq|]).
  apply elem_of_nil in Hin. exact Hin.
Qed.

Lemma select_callable (E : env) (name : string) :
  name ≠ "" →
  callable (module_globals E !! name) = true →
  select E (Some name) = CallBranch (module_globals E !! name).
Proof.
  intros Hne Hc. unfold select.
  destruct (decide (name = "")) as [-> | _]; [congruence|].
  cbv zeta. rewrite Hc. reflexivity.
Qed.

Lemma select_not_callable (E : env) (name : string) :
  name ≠ "" →
  callable (module_globals E !! name) = false →
  select E (Some name) = NotFoundBranch name.
Proof.
  intros Hne Hc. unfold select.
  destruct (decide (name = "")) as [-> | _]; [congruence|].
  cbv zeta. rewrite Hc. reflexivity.
Qed.

(** C8: each of the seven names that [_list_functions] prints is bound, when
    the dispatcher looks it up, to the function that [def] defined under that
    name; the dispatcher calls it and does not take the not-found branch. *)
Theorem advertised_names_resolve (E : env) (name : string) :
  name ∈ fns →
  stdout _list_functions
  = [VStr "Funcions disponibles:"] :: ((λ n, [VStr "  -"; VStr n]) <$> fns)
  ∧ length fns = 7%nat
  ∧ ∃ body : Py unit,
      module_globals E !! name = Some (PyFunction name body)
      ∧ callable (module_globals E !! name) = true
      ∧ select E (Some name) = CallBranch (Some (PyFunction name body))
      ∧ select E (Some name) ≠ NotFoundBranch name
      ∧ main E (Some name) = body.
Proof.
  intros Hin. split; [reflexivity|]. split; [reflexivity|].
  assert (Hne : name ≠ "").
  { apply function_names_nonempty. unfold defined_functions.
    apply elem_of_app. left. exact Hin. }
  assert (Hlook : ∃ body, module_globals E !! name = Some (PyFunction name body)).
  { unfold fns in Hin.
    repeat (apply elem_of_cons in Hin as [-> | Hin];
            [eexists; lookup_global; reflexivity|]).
    apply elem_of_nil in Hin. destruct Hin. }
  destruct Hlook as [body Hbody]. exists body.
  assert (Hc : callable (module_globals E !! name) = true) by (rewrite Hbody; reflexivity).
  pose proof (select_callable E name Hne Hc) as Hsel. rewrite Hbody in Hsel.
  split; [exact Hbody|]. split; [exact Hc|]. split; [exact Hsel|].
  split; [rewrite Hsel; discriminate|].
  unfold main. rewrite Hsel. reflexivity.
Qed.

Lemma advertised_names_resolve_witness :
  "cprofile_example" ∈ fns
  ∧ ∃ body : Py unit,
      module_globals script_env !! "cprofile_example"
      = Some (PyFunction "cprofile_example" body)
      ∧ main script_env (Some "cprofile_example") = body.
Proof.
  assert (Hin : "cprofile_example" ∈ fns) by (unfold fns; set_solver).
  split; [exact Hin|].
  destruct (advertised_names_resolve script_env "cprofile_example" Hin)
    as (_ & _ & body & Hbody & _ & _ & _ & Hmain).
  exists body. split; [exact Hbody | exact Hmain].
Defined.

Lemma list_functions_listing : _list_functions = (listing, Ret tt).
Proof. reflexivity. Qed.

(** C3, as amended: for every non-empty name that the module namespace
    does not bind to a callable (none of the seven routines, not
    [_list_functions], and no callable that was in the namespace before the
    module ran), the dispatcher prints the diagnostic with that name, then
    the heading and the seven names, raises nothing and ends with status 0. *)
Theorem unknown_name_reports_not_found (E : env) (name : string) :
  name ≠ "" →
  name ∉ defined_functions →
  callable (initial_globals E !! name) = false →
  main E (Some name)
  = (EPrint [VStr ("Funció no trobada: " +:+ name +:+ nl)] :: listing, Ret tt)
  ∧ exit_status (main E (Some name)) = 0.
Proof.
  intros Hne Hout Hinit.
  pose proof (callable_elsewhere E name Hout Hinit) as Hc.
  unfold main, exit_status. rewrite (select_not_callable E name Hne Hc).
  split; reflexivity.
Qed.

Lemma unknown_name_reports_not_found_witness :
  main script_env (Some "no_such_example")
  = (EPrint [VStr ("Funció no trobada: " +:+ "no_such_example" +:+ nl)] :: listing,
     Ret tt)
  ∧ exit_status (main script_env (Some "no_such_example")) = 0.
Proof.
  apply (unknown_name_reports_not_found script_env "no_such_example").
  - discriminate.
  - unfold defined_functions, fns. simpl. not_in_literals.
  - reflexivity.
Defined.

(** C3, as stated, fails: [_list_functions] is not one of the seven
    routines, yet a request for it finds a callable and runs it; what is
    printed is the list alone, with no not-found diagnostic.  The empty name
    is not one of the seven either, and it too gets the list alone. *)
Lemma unregistered_names_without_diagnostic :
  ("_list_functions" ∉ fns)
  ∧ select script_env (Some "_list_functions")
    = CallBranch (Some (PyFunction "_list_functions" _list_functions))
  ∧ main script_env (Some "_list_functions") = (listing, Ret tt)
  ∧ (EPrint [VStr ("Funció no trobada: " +:+ "_list_functions" +:+ nl)]
     ∉ trace (main script_env (Some "_list_functions")))
  ∧ ("" ∉ fns)
  ∧ main script_env (Some "") = (listing, Ret tt).
Proof.
  assert (Hsel : select script_env (Some "_list_functions")
                 = CallBranch (Some (PyFunction "_list_functions" _list_functions))).
  { rewrite select_callable.
    - f_equal.
    - discriminate.
    - lookup_global. reflexivity. }
  assert (Hmain : main script_env (Some "_list_functions") = (listing, Ret tt)).
  { unfold main. rewrite Hsel. reflexivity. }
  split; [unfold fns; not_in_literals|].
  split; [exact Hsel|]. split; [exact Hmain|].
  split; [rewrite Hmain; unfold trace, listing; simpl; not_in_literals|].
  split; [unfold fns; not_in_literals | reflexivity].
Qed.

(** C9, as amended: the name is resolved in the module namespace.  A
    non-empty name bound there to a function, advertised or not, gets that
    function called; [_list_functions] is one; and a non-empty name that is
    bound to a non-callable object, or not bound at all, takes the not-found
    branch, which returns normally. *)
Theorem dispatch_resolves_in_globals :
  (∀ (E : env) (name fname : string) (body : Py unit),
     name ≠ "" →
     module_globals E !! name = Some (PyFunction fname body) →
     select E (Some name) = CallBranch (Some (PyFunction fname body))
     ∧ main E (Some name) = body)
  ∧ (∀ E : env,
       ("_list_functions" ∉ fns)
       ∧ main E (Some "_list_functions") = _list_functions)
  ∧ (∀ (E : env) (name : string),
       name ≠ "" →
       (module_globals E !! name = None
        ∨ ∃ d, module_globals E !! name = Some (PyData d)) →
       select E (Some name) = NotFoundBranch name
       ∧ main E (Some name)
         = (EPrint [VStr ("Funció no trobada: " +:+ name +:+ nl)] :: listing, Ret tt)
       ∧ result (main E (Some name)) = Ret tt).
Proof.
  assert (Hcall : ∀ (E : env) (name fname : string) (body : Py unit),
             name ≠ "" →
             module_globals E !! name = Some (PyFunction fname body) →
             select E (Some name) = CallBranch (Some (PyFunction fname body))
             ∧ main E (Some name) = body).
  { intros E name fname body Hne Hlook.
    assert (Hsel : select E (Some name) = CallBranch (Some (PyFunction fname body))).
    { rewrite (select_callable E name Hne); rewrite Hlook; reflexivity. }
    split; [exact Hsel|]. unfold main. rewrite Hsel. reflexivity. }
  split; [exact Hcall|]. split.
  - intros E. split; [unfold fns; not_in_literals|].
    apply (Hcall E "_list_functions" "_list_functions"); [discriminate|].
    lookup_global. reflexivity.
  - intros E name Hne Hlook.
    assert (Hc : callable (module_globals E !! name) = false).
    { destruct Hlook as [-> | [d ->]]; reflexivity. }
    pose proof (select_not_callable E name Hne Hc) as Hsel.
    split; [exact Hsel|]. unfold main, result. rewrite Hsel. split; reflexivity.
Qed.

Lemma dispatch_resolves_in_globals_witness :
  main script_env (Some "_list_functions") = _list_functions
  ∧ select script_env (Some "parser") = NotFoundBranch "parser"
  ∧ select script_env (Some "no_such_example") = NotFoundBranch "no_such_example".
Proof.
  destruct dispatch_resolves_in_globals as (_ & Hlist & Hdata).
  split; [exact (proj2 (Hlist script_env))|]. split.
  - refine (proj1 (Hdata script_env "parser" _ _)); [discriminate|].
    right. eexists. lookup_global. reflexivity.
  - refine (proj1 (Hdata script_env "no_such_example" _ _)); [discriminate|].
    left. lookup_global. reflexivity.
Defined.

(** C9, as stated, fails on the empty name: it is bound to nothing in the
    namespace, yet [--func ""] is treated as no request at all and the
    dispatcher prints the list without the not-found diagnostic. *)
Lemma empty_name_lists_without_diagnostic :
  module_globals script_env !! "" = None
  ∧ select script_env (Some "") = ListBranch
  ∧ select script_env (Some "") ≠ NotFoundBranch ""
  ∧ main script_env (Some "") = (listing, Ret tt).
Proof.
  split; [lookup_global; reflexivity|].
  split; [reflexivity|]. split; [discriminate|]. reflexivity.
Qed.

(** ** Order on floats *)

Lemma SFltb_key (x y : spec_float) :
  x ≠ S754_nan → y ≠ S754_nan →
  SFltb x y = true ↔ key_lt (sf_key x) (sf_key y).
Proof.
  intros Hx Hy. unfold SFltb, key_lt.
  destruct x as [sx | sx | | sx mx ex], y as [sy | sy | | sy my ey];
    try congruence; try destruct sx; try destruct sy; simpl;
    try (split; [discriminate | lia]); try (split; [lia | discriminate]);
    try (split; [reflexivity | lia]); try (split; [lia | reflexivity]).
  - change (Pos.compare_cont Eq mx my) with (Pos.compare mx my).
    destruct (Z.compare_spec ex ey), (Pos.compare_spec mx my); simpl;
      split; try discriminate; try reflexivity; lia.
  - change (Pos.compare_cont Eq mx my) with (Pos.compare mx my).
    destruct (Z.compare_spec ex ey), (Pos.compare_spec mx my); simpl;
      split; try discriminate; try reflexivity; lia.
Qed.

Lemma SFltb_nan_l (y : spec_float) : SFltb S754_nan y = false.
Proof. reflexivity. Qed.

Lemma SFltb_nan_r (x : spec_float) : SFltb x S754_nan = false.
Proof. destruct x; reflexivity. Qed.

Lemma sf_nan_cases (x : spec_float) : x = S754_nan ∨ x ≠ S754_nan.
Proof. destruct x; first [left; reflexivity | right; discriminate]. Qed.

Lemma not_nan_spec (x : float) : is_nan x = false → Prim2SF x ≠ S754_nan.
Proof.
  unfold is_nan. rewrite FloatAxioms.eqb_spec. intros Hnan Hx.
  rewrite Hx in Hnan. discriminate Hnan.
Qed.

(** [<] on floats is asymmetric, NaN included. *)
Lemma float_ltb_asym (x y : float) :
  (x <? y)%float = true → (y <? x)%float = false.
Proof.
  rewrite !FloatAxioms.ltb_spec. intros Hlt.
  destruct (sf_nan_cases (Prim2SF x)) as [Hx | Hx];
    [rewrite Hx; apply SFltb_nan_r|].
  destruct (sf_nan_cases (Prim2SF y)) as [Hy | Hy];
    [rewrite Hy; apply SFltb_nan_l|].
  apply (SFltb_key _ _ Hx Hy) in Hlt.
  apply not_true_is_false. intros Hgt.
  apply (SFltb_key _ _ Hy Hx) in Hgt.
  unfold key_lt in *. lia.
Qed.

(** Away from NaN, "not less than" is transitive. *)
Lemma float_not_ltb_trans (x y z : float) :
  is_nan x = false → is_nan y = false → is_nan z = false →
  (x <? y)%float = false → (y <? z)%float = false → (x <? z)%float = false.
Proof.
  intros Hx%not_nan_spec Hy%not_nan_spec Hz%not_nan_spec.
  rewrite !FloatAxioms.ltb_spec. intros Hxy Hyz.
  apply not_true_is_false. intros Hxz.
  apply (SFltb_key _ _ Hx Hz) in Hxz.
  assert (Hkxy : ¬ key_lt (sf_key (Prim2SF x)) (sf_key (Prim2SF y))).
  { intros Hk. apply (SFltb_key _ _ Hx Hy) in Hk. congruence. }
  assert (Hkyz : ¬ key_lt (sf_key (Prim2SF y)) (sf_key (Prim2SF z))).
  { intros Hk. apply (SFltb_key _ _ Hy Hz) in Hk. congruence. }
  unfold key_lt in *. lia.
Qed.

(** ** The stable sort *)

Section StableSortFacts.
Context {A : Type} (before : A → A → bool) (ok : A → Prop).
Hypothesis before_asym :
  ∀ a b, before a b = true → before b a = false.
Hypothesis not_before_trans :
  ∀ a b c, ok a → ok b → ok c →
           before b a = false → before c b = false → before c a = false.

Lemma insert_stable_perm (x : A) (l : list A) :
  insert_stable before x l ≡ₚ x :: l.
Proof.
  induction l as [|y l IH]; simpl; [reflexivity|].
  destruct (before y x); [|reflexivity].
  rewrite IH. apply Permutation_swap.
Qed.

Lemma stable_sort_perm (l : list A) : stable_sort before l ≡ₚ l.
Proof.
  induction l as [|x l IH]; simpl; [reflexivity|].
  rewrite insert_stable_perm, IH. reflexivity.
Qed.

Lemma insert_stable_sorted (x : A) (l : list A) :
  ok x → Forall ok l →
  StronglySorted (in_order before) l →
  StronglySorted (in_order before) (insert_stable before x l).
Proof.
  intros Hx Hl Hs. induction Hs as [|y l Hs IH Hy]; simpl.
  - repeat constructor.
  - apply Forall_cons in Hl as [Hoky Hl].
    destruct (before y x) eqn:Hyx.
    + constructor; [exact (IH Hl)|].
      rewrite insert_stable_perm. constructor; [|exact Hy].
      unfold in_order. apply before_asym, Hyx.
    + constructor; [constructor; assumption|].
      constructor; [exact Hyx|].
      rewrite Forall_forall in Hy, Hl |- *. intros z Hz.
      unfold in_order in *.
      apply (not_before_trans x y z); auto.
Qed.

Lemma stable_sort_sorted (l : list A) :
  Forall ok l → StronglySorted (in_order before) (stable_sort before l).
Proof.
  intros Hl. induction Hl as [|x l Hx Hl IH]; simpl; [constructor|].
  apply insert_stable_sorted; [exact Hx | | exact IH].
  rewrite stable_sort_perm. exact Hl.
Qed.

End StableSortFacts.

Lemma StronglySorted_take {A} (R : A → A → Prop) (n : nat) (l : list A) :
  StronglySorted R l → StronglySorted R (take n l).
Proof.
  intros Hs. revert n. induction Hs as [|x l Hs IH Hx]; intros [|n]; simpl;
    try constructor; [apply IH|].
  apply Forall_take, Hx.
Qed.

Lemma StronglySorted_map {A B} (R : A → A → Prop) (R' : B → B → Prop) (f : A → B)
    (l : list A) :
  (∀ a b, R a b → R' (f a) (f b)) →
  StronglySorted R l → StronglySorted R' (f <$> l).
Proof.
  intros Hf Hs. induction Hs as [|x l Hs IH Hx]; simpl; constructor; [exact IH|].
  apply Forall_fmap. eapply Forall_impl; [exact Hx|]. intros b Hb. apply Hf, Hb.
Qed.

(** ** The profiling report *)

Lemma compare_cumtime_before (a b : func * func_stat) :
  (Pstats.compare_cumtime a b <? 0) = (st_ct b.2 <? st_ct a.2)%float.
Proof.
  unfold Pstats.compare_cumtime. cbv zeta.
  destruct (st_ct a.2 <? st_ct b.2)%float eqn:Hab.
  - rewrite (float_ltb_asym _ _ Hab). reflexivity.
  - destruct (st_ct b.2 <? st_ct a.2)%float; reflexivity.
Qed.

Lemma for_print_line (S : Pstats.Stats) (ps : list (func * func_stat)) :
  Forall (λ p, Pstats.stats S !! p.1 = Some p.2) ps →
  for_ ps.*1 (Pstats.print_line S) = (row_event <$> ps, Ret tt).
Proof.
  intros Hps. induction Hps as [|p ps Hp _ IH]; [reflexivity|].
  change (for_ (p :: ps).*1 (Pstats.print_line S))
    with (Pstats.print_line S p.1;; for_ ps.*1 (Pstats.print_line S)).
  rewrite IH. unfold Pstats.print_line. rewrite Hp. reflexivity.
Qed.

Lemma top_entries_bound (E : env) :
  Forall (λ p, Pstats.stats (Pstats.strip_dirs (Pstats.load (profile_stats E))) !! p.1
               = Some p.2) (top_entries E).
Proof.
  unfold top_entries. apply Forall_take.
  rewrite stable_sort_perm. apply Forall_forall. intros p Hp.
  apply elem_of_map_to_list', Hp.
Qed.

Lemma report_rows_of_rows (ps : list (func * func_stat)) (r : outcome unit) :
  report_rows (row_event <$> ps, r) = (λ p, (p.1, st_ct p.2)) <$> ps.
Proof.
  induction ps as [|[[[file l] name] st] ps IH]; [reflexivity|].
  unfold report_rows, stdout, trace in *. cbn in *. f_equal. exact IH.
Qed.

Lemma fcn_list_cases (S : Pstats.Stats) :
  Pstats.fcn_list S = None ∨ ∃ l, Pstats.fcn_list S = Some l.
Proof. destruct (Pstats.fcn_list S); eauto. Qed.

Lemma report_rows_app {A} (tr1 tr2 : list event) (r1 r2 r : outcome A) :
  report_rows (tr1 ++ tr2, r) = report_rows (tr1, r1) ++ report_rows (tr2, r2).
Proof. unfold report_rows, stdout, trace. simpl. rewrite !omap_app. reflexivity. Qed.

(** What [print_stats] emits when every listed name has its entry: header
    lines, none of them a row, then one row per name. *)
Lemma print_stats_run (amount : nat) (S : Pstats.Stats) (ps : list (func * func_stat)) :
  Pstats.get_print_list amount S = ps.*1 →
  Forall (λ p, Pstats.stats S !! p.1 = Some p.2) ps →
  ∃ header : list event,
    Pstats.print_stats amount S = (header ++ (row_event <$> ps), Ret tt)
    ∧ report_rows (header, Ret tt) = [].
Proof.
  intros Hlist Hps. pose proof (for_print_line S ps Hps) as Hloop.
  unfold Pstats.print_stats. cbv zeta. rewrite Hlist.
  set (loop := for_ ps.*1 (Pstats.print_line S)) in *.
  set (total := map_fold _ _ _).
  clearbody loop total. subst loop.
  exists ([EPrint [VInt total; VStr "function calls"];
           EPrint [VStr (match Pstats.fcn_list S with
                         | Some _ => "   Ordered by: cumulative time"
                         | None => "   Random listing order was used"
                         end)]]
          ++ (if ps is [] then [] else trace Pstats.print_title)).
  destruct (fcn_list_cases S) as [Hf | [l Hf]]; rewrite Hf;
    destruct ps as [|p ps]; split; reflexivity.
Qed.

Lemma cprofile_example_rows (E : env) :
  result (cprofile_example E) = Ret tt
  ∧ report_rows (cprofile_example E) = (λ p, (p.1, st_ct p.2)) <$> top_entries E.
Proof.
  destruct (print_stats_run 10
              (Pstats.sort_stats_cumtime
                 (Pstats.strip_dirs (Pstats.load (profile_stats E))))
              (top_entries E)) as (header & Hrun & Hheader).
  - unfold Pstats.get_print_list, top_entries. simpl. symmetry. apply fmap_take.
  - exact (top_entries_bound E).
  - unfold cprofile_example. cbv zeta. rewrite Hrun.
    split; [reflexivity|].
    change (report_rows
              ([ECall "cProfile" "Profile"] ++ header ++ (row_event <$> top_entries E),
               Ret tt)
            = (λ p, (p.1, st_ct p.2)) <$> top_entries E).
    rewrite !(report_rows_app _ _ (Ret tt) (Ret tt)), Hheader, report_rows_of_rows.
    reflexivity.
Qed.

(** C6: the report of [cprofile_example] has at most ten rows, the number
    passed to [print_stats], and their cumulative times never increase from
    one row to any later row.  The order is that of [<] on floats, so the
    cumulative times of the aggregated profile are taken not to be NaN. *)
Theorem cprofile_report_top10_sorted (E : env) :
  map_Forall (λ _ st, is_nan (st_ct st) = false)
    (Pstats.stats (Pstats.strip_dirs (Pstats.load (profile_stats E)))) →
  (length (report_rows (cprofile_example E)) ≤ 10)%nat
  ∧ StronglySorted (λ a b, (a.2 <? b.2)%float = false)
      (report_rows (cprofile_example E))
  ∧ result (cprofile_example E) = Ret tt.
Proof.
  intros Hnan. destruct (cprofile_example_rows E) as [Hres Hrows].
  rewrite Hrows. split; [|split; [|exact Hres]].
  - rewrite length_fmap. unfold top_entries. rewrite length_take. lia.
  - apply (StronglySorted_map
             (in_order (λ a b, Pstats.compare_cumtime a b <? 0))).
    + intros a b Hab. unfold in_order in Hab.
      rewrite compare_cumtime_before in Hab. exact Hab.
    + unfold top_entries. apply StronglySorted_take.
      apply (stable_sort_sorted _ (λ p, is_nan (st_ct p.2) = false)).
      * intros a b. rewrite !compare_cumtime_before. apply float_ltb_asym.
      * intros a b c Ha Hb Hc. rewrite !compare_cumtime_before.
        apply float_not_ltb_trans; assumption.
      * apply map_Forall_to_list in Hnan.
        eapply Forall_impl; [exact Hnan|]. intros [f st] Hst. exact Hst.
Qed.

(** On the sample: directories stripped, ten of the twelve entries kept,
    largest cumulative time first. *)
Example sample_report :
  report_rows (cprofile_example profiling_env)
  = [("ff.py", 1, "work", 9%float); ("fh.py", 1, "work", 7%float);
     ("fl.py", 1, "work", 6%float); ("fk.py", 1, "work", 5%float);
     ("fb.py", 1, "work", 4%float); ("fd.py", 1, "work", 3%float);
     ("fi.py", 1, "work", 2%float); ("fg.py", 1, "work", 1%float);
     ("fj.py", 1, "work", 0.75%float); ("fc.py", 1, "work", 0.5%float)].
Proof. vm_compute. reflexivity. Qed.

Lemma cprofile_report_top10_sorted_witness :
  map_Forall (λ _ st, is_nan (st_ct st) = false)
    (Pstats.stats (Pstats.strip_dirs (Pstats.load (profile_stats profiling_env))))
  ∧ (length (report_rows (cprofile_example profiling_env)) ≤ 10)%nat
  ∧ StronglySorted (λ a b, (a.2 <? b.2)%float = false)
      (report_rows (cprofile_example profiling_env))
  ∧ result (cprofile_example profiling_env) = Ret tt.
Proof.
  assert (Hnan : map_Forall (λ _ st, is_nan (st_ct st) = false)
                   (Pstats.stats
                      (Pstats.strip_dirs (Pstats.load (profile_stats profiling_env))))).
  { apply map_Forall_to_list. vm_compute. repeat constructor. }
  split; [exact Hnan | exact (cprofile_report_top10_sorted profiling_env Hnan)].
Defined.

(** * Further properties *)

(** ** The guard and the running total *)

Lemma assertion_guard_spec (n : float) :
  assertion_guard n = sf_nonneg (Prim2SF n).
Proof.
  unfold assertion_guard. rewrite FloatAxioms.leb_spec.
  change (Prim2SF 0%float) with (S754_zero false).
  destruct (Prim2SF n) as [s | [|] | | [|] m e]; reflexivity.
Qed.

Lemma SFeqb_refl_not_nan (x : spec_float) :
  SFeqb x x = match x with S754_nan => false | _ => true end.
Proof.
  unfold SFeqb.
  destruct x as [s | [|] | | [|] m e]; simpl; try reflexivity;
    rewrite Z.compare_refl, Pos.compare_cont_refl; reflexivity.
Qed.

Lemma sf_nonneg_tests (n : float) :
  sf_nonneg (Prim2SF n) = negb (is_nan n) && negb (n <? 0)%float.
Proof.
  unfold is_nan.
  rewrite FloatAxioms.eqb_spec, FloatAxioms.ltb_spec, SFeqb_refl_not_nan.
  change (Prim2SF 0%float) with (S754_zero false).
  destruct (Prim2SF n) as [s | [|] | | [|] m e]; reflexivity.
Qed.

(** X1: the [assert] lets through exactly the floats that are not NaN and
    not below zero; a NaN stops the loop as a negative number does, while
    -0.0 and infinity pass. *)
Theorem assertion_guard_rejects_negative_and_nan (n : float) :
  assertion_guard n = negb (is_nan n) && negb (n <? 0)%float
  ∧ assertion_guard (-0)%float = true
  ∧ assertion_guard infinity = true
  ∧ assertion_guard nan = false.
Proof.
  split; [|repeat split].
  rewrite assertion_guard_spec. apply sf_nonneg_tests.
Qed.

(** X2: the loop stops at the first element that fails the guard, whatever
    comes after it: the elements before it have been added in order, the
    rest is never read, nothing is printed and the assertion error reaches
    the caller. *)
Theorem assertion_stops_at_first_violation (passed : list float) (n : float)
    (rest : list float) :
  Forall (λ x, assertion_guard x = true) passed →
  assertion_guard n = false →
  assertion_loop (passed ++ n :: rest) 0%float
  = AssertFailed (fold_left PrimFloat.add passed 0%float) n rest
  ∧ assertion_example_on (passed ++ n :: rest)
    = ([], Raise (AssertionError assertion_message)).
Proof.
  intros Hpassed Hn.
  assert (Hloop : ∀ total,
             assertion_loop (passed ++ n :: rest) total
             = AssertFailed (fold_left PrimFloat.add passed total) n rest).
  { induction Hpassed as [|x passed Hx _ IH]; intros total; simpl.
    - rewrite Hn. reflexivity.
    - rewrite Hx. apply IH. }
  split; [apply Hloop|].
  unfold assertion_example_on. rewrite Hloop. reflexivity.
Qed.

Lemma assertion_stops_at_first_violation_witness :
  assertion_loop ([2; 0.5] ++ (-1) :: [4; -8])%float 0%float
  = AssertFailed (fold_left PrimFloat.add [2; 0.5]%float 0%float) (-1)%float
      [4; -8]%float
  ∧ assertion_example_on ([2; 0.5] ++ (-1) :: [4; -8])%float
    = ([], Raise (AssertionError assertion_message)).
Proof.
  apply (assertion_stops_at_first_violation [2; 0.5]%float (-1)%float [4; -8]%float).
  - repeat constructor.
  - reflexivity.
Defined.

(** Rounding a non-negative integer never yields a negative value or NaN. *)

Lemma shr_1_nonneg (mrs : shr_record) : 0 ≤ shr_m mrs → 0 ≤ shr_m (shr_1 mrs).
Proof.
  destruct mrs as [m r s]. simpl.
  destruct m as [|[p|p|]|p]; simpl; lia.
Qed.

Lemma iter_pos_invariant {A} (f : A → A) (P : A → Prop) (n : positive) (x : A) :
  (∀ a, P a → P (f a)) → P x → P (SpecFloat.iter_pos f n x).
Proof.
  intros Hf. revert x.
  induction n as [n IH | n IH |]; intros x Hx; simpl; auto.
Qed.

Lemma shr_nonneg (mrs : shr_record) (e n : Z) :
  0 ≤ shr_m mrs → 0 ≤ shr_m (shr mrs e n).1.
Proof.
  intros Hm. destruct n as [|p|p]; simpl; [exact Hm| |exact Hm].
  apply (iter_pos_invariant shr_1 (λ r, 0 ≤ shr_m r)); [apply shr_1_nonneg | exact Hm].
Qed.

Lemma shr_fexp_nonneg (prec emax m e : Z) (l : location) :
  0 ≤ m → 0 ≤ shr_m (shr_fexp prec emax m e l).1.
Proof.
  intros Hm. unfold shr_fexp. apply shr_nonneg.
  destruct l as [|[| |]]; exact Hm.
Qed.

Lemma round_nearest_even_nonneg (m : Z) (l : location) :
  0 ≤ m → 0 ≤ round_nearest_even m l.
Proof.
  intros Hm. destruct l as [|[| |]]; simpl; try lia.
  destruct (Z.even m); lia.
Qed.

Lemma binary_round_aux_nonneg (prec emax mx ex : Z) (lx : location) :
  0 ≤ mx → sf_nonneg (binary_round_aux prec emax false mx ex lx) = true.
Proof.
  intros Hm. unfold binary_round_aux.
  pose proof (shr_fexp_nonneg prec emax mx ex lx Hm) as H1.
  destruct (shr_fexp prec emax mx ex lx) as [mrs' e']. simpl in H1.
  pose proof (shr_fexp_nonneg prec emax
                (round_nearest_even (shr_m mrs') (loc_of_shr_record mrs')) e' loc_Exact
                (round_nearest_even_nonneg _ _ H1)) as H2.
  destruct (shr_fexp prec emax _ e' loc_Exact) as [mrs'' e'']. simpl in H2.
  destruct (shr_m mrs'') as [|m|m]; [reflexivity | | lia].
  destruct (e'' <=? emax - prec); reflexivity.
Qed.

Lemma binary_round_nonneg (prec emax : Z) (m : positive) (e : Z) :
  sf_nonneg (binary_round prec emax false m e) = true.
Proof.
  unfold binary_round.
  destruct (shl_align m e _) as [mz ez].
  apply binary_round_aux_nonneg. lia.
Qed.

Lemma SFadd_nonneg (prec emax : Z) (x y : spec_float) :
  sf_nonneg x = true → sf_nonneg y = true →
  sf_nonneg (SFadd prec emax x y) = true.
Proof.
  destruct x as [sx | [|] | | [|] mx ex], y as [sy | [|] | | [|] my ey];
    simpl; try discriminate; try reflexivity; intros _ _.
  - destruct sx, sy; reflexivity.
  - apply binary_round_nonneg.
Qed.

Lemma assertion_guard_add (a b : float) :
  assertion_guard a = true → assertion_guard b = true →
  assertion_guard (a + b)%float = true.
Proof.
  rewrite !assertion_guard_spec, FloatAxioms.add_spec. apply SFadd_nonneg.
Qed.

(** X3: the running total never leaves the range the guard accepts.  When
    every element passes, the total printed at the end passes it too: it is
    not NaN and not below zero, however the additions round or overflow. *)
Theorem assertion_total_is_nonnegative (numbers : list float) :
  Forall (λ n, assertion_guard n = true) numbers →
  ∃ total,
    assertion_example_on numbers = ([EPrint [VStr "total és:"; VFloat total]], Ret tt)
    ∧ assertion_guard total = true
    ∧ is_nan total = false
    ∧ (total <? 0)%float = false.
Proof.
  intros Hall.
  assert (Hinv : ∀ total, assertion_guard total = true →
                          assertion_guard (fold_left PrimFloat.add numbers total) = true).
  { induction Hall as [|n rest Hn _ IH]; intros total Htotal; simpl.
    - exact Htotal.
    - apply IH, assertion_guard_add; assumption. }
  exists (fold_left PrimFloat.add numbers 0%float).
  pose proof (Hinv 0%float eq_refl) as Hguard.
  split.
  - unfold assertion_example_on.
    rewrite (assertion_loop_all_pass _ _ Hall). reflexivity.
  - split; [exact Hguard|].
    rewrite assertion_guard_spec, sf_nonneg_tests in Hguard.
    apply andb_true_iff in Hguard as [Hnan Hneg].
    split; apply negb_true_iff; assumption.
Qed.

Lemma assertion_total_is_nonnegative_witness :
  ∃ total,
    assertion_example_on [1.5; 2.3; 0.7; 4.4]%float
    = ([EPrint [VStr "total és:"; VFloat total]], Ret tt)
    ∧ assertion_guard total = true
    ∧ is_nan total = false
    ∧ (total <? 0)%float = false.
Proof.
  apply (assertion_total_is_nonnegative [1.5; 2.3; 0.7; 4.4]%float).
  repeat constructor.
Defined.

(** ** The routines that print listings *)

Lemma for_print {A} (l : list A) (g : A → list pyval) :
  for_ l (λ x, print (g x)) = ((λ x, EPrint (g x)) <$> l, Ret tt).
Proof.
  induction l as [|x l IH]; [reflexivity|].
  change (for_ (x :: l) (λ x, print (g x)))
    with (print (g x);; for_ l (λ x, print (g x))).
  rewrite IH. reflexivity.
Qed.

Lemma tracemalloc_example_run (E : env) :
  tracemalloc_example E
  = ([ ECall "tracemalloc" "start";
       ECall "tracemalloc" "take_snapshot";
       ECall "tracemalloc" "take_snapshot";
       EPrint [VStr "TOP línies per bytes (snapshot 2):"] ]
     ++ ((λ s, EPrint [VStr s]) <$> take 10 (snapshot_statistics E))
     ++ [ EPrint [VStr (nl +:+ "Diferències (snap2 - snap1):")] ]
     ++ ((λ s, EPrint [VStr s]) <$> take 10 (snapshot_compare_to E)),
     Ret tt).
Proof.
  pose proof (for_print (take 10 (snapshot_statistics E)) (λ s, [VStr s])) as Hstat.
  pose proof (for_print (take 10 (snapshot_compare_to E)) (λ s, [VStr s])) as Hdiff.
  cbv beta in Hstat, Hdiff.
  unfold tracemalloc_example. cbv zeta.
  set (top := for_ (take 10 (snapshot_statistics E)) _) in *.
  set (diff := for_ (take 10 (snapshot_compare_to E)) _) in *.
  clearbody top diff. subst top diff. reflexivity.
Qed.


(** With twelve entries and three differences: ten and three are printed. *)
Example traced_report :
  length (stdout (tracemalloc_example traced_env)) = 15%nat
  ∧ last (stdout (tracemalloc_example traced_env)) = Some [VStr "c"].
Proof. rewrite tracemalloc_example_run. split; reflexivity. Qed.

(** ** How the routines end *)

Lemma exit_status_returns {A} (m : Py A) (a : A) :
  result m = Ret a → exit_status m = 0.
Proof. unfold exit_status. intros ->. reflexivity. Qed.

Lemma timing_example_returns (E : env) : result (timing_example E) = Ret tt.
Proof. reflexivity. Qed.

Lemma psutil_rss_example_returns (E : env) : result (psutil_rss_example E) = Ret tt.
Proof.
  unfold psutil_rss_example, import_psutil_module.
  destruct (import_psutil E) as [e | rss]; reflexivity.
Qed.

Lemma memory_profiler_example_returns (E : env) :
  profiler_returns E → result (memory_profiler_example E) = Ret tt.
Proof.
  intros Hret.
  unfold memory_profiler_example, from_memory_profiler_import_profile.
  destruct (import_memory_profiler E) as [e | profile] eqn:Himport; [reflexivity|].
  rewrite work_lists_value.
  destruct (Hret profile Himport (mret 249999500000) [] 249999500000 eq_refl)
    as (tr' & v' & Hrun).
  simpl. rewrite Hrun. reflexivity.
Qed.

Lemma memory_profiler_eficient_example_returns (E : env) :
  profiler_returns E → result (memory_profiler_eficient_example E) = Ret tt.
Proof.
  intros Hret.
  unfold memory_profiler_eficient_example, from_memory_profiler_import_profile.
  destruct (import_memory_profiler E) as [e | profile] eqn:Himport;
    [rewrite work_single_loop_value; reflexivity|].
  rewrite work_single_loop_value.
  destruct (Hret profile Himport (mret 249999500000) [] 249999500000 eq_refl)
    as (tr' & v' & Hrun).
  simpl. rewrite Hrun. reflexivity.
Qed.

(** ** The dispatcher as a whole *)

Lemma main_calls_function (E : env) (name fname : string) (body : Py unit) :
  name ≠ "" →
  module_globals E !! name = Some (PyFunction fname body) →
  main E (Some name) = body.
Proof.
  intros Hne Hlook. unfold main.
  rewrite (select_callable E name Hne); rewrite Hlook; reflexivity.
Qed.

Lemma main_not_found (E : env) (name : string) :
  name ≠ "" →
  callable (module_globals E !! name) = false →
  main E (Some name)
  = (EPrint [VStr ("Funció no trobada: " +:+ name +:+ nl)] :: listing, Ret tt).
Proof.
  intros Hne Hc. unfold main. rewrite (select_not_callable E name Hne Hc). reflexivity.
Qed.

(** X5: run directly, the program ends with a failure status for exactly one
    request, [assertion_example]: no flag, an empty or unknown name, and each
    of the other routines (with or without the optional packages) end with
    status 0. *)
Theorem only_assertion_example_fails (E : env) (func : option string) :
  no_callable_at_start E →
  profiler_returns E →
  (exit_status (main E func) = 1 ↔ func = Some "assertion_example")
  ∧ (exit_status (main E func) = 0 ↔ func ≠ Some "assertion_example").
Proof.
  intros Hstart Hret.
  assert (Hcases : (func = Some "assertion_example" ∧ exit_status (main E func) = 1)
                   ∨ (func ≠ Some "assertion_example" ∧ exit_status (main E func) = 0)).
  { destruct func as [name|]; [|right; split; [discriminate | reflexivity]].
    destruct (decide (name = "")) as [-> | Hne];
      [right; split; [discriminate | reflexivity]|].
    destruct (decide (name ∈ defined_functions)) as [Hin | Hout].
    - unfold defined_functions, fns in Hin. simpl in Hin.
      repeat (apply elem_of_cons in Hin as [-> | Hin]; [|]);
        [| | | | | | | | apply elem_of_nil in Hin; destruct Hin].
      + left. split; [reflexivity|].
        rewrite (main_calls_function E _ "assertion_example" assertion_example Hne)
          by (lookup_global; reflexivity).
        reflexivity.
      + right. split; [discriminate|].
        rewrite (main_calls_function E _ "timing_example" (timing_example E) Hne)
          by (lookup_global; reflexivity).
        exact (exit_status_returns _ _ (timing_example_returns E)).
      + right. split; [discriminate|].
        rewrite (main_calls_function E _ "cprofile_example" (cprofile_example E) Hne)
          by (lookup_global; reflexivity).
        exact (exit_status_returns _ _ (proj1 (cprofile_example_rows E))).
      + right. split; [discriminate|].
        rewrite (main_calls_function E _ "tracemalloc_example" (tracemalloc_example E) Hne)
          by (lookup_global; reflexivity).
        rewrite tracemalloc_example_run. reflexivity.
      + right. split; [discriminate|].
        rewrite (main_calls_function E _ "memory_profiler_example"
                   (memory_profiler_example E) Hne)
          by (lookup_global; reflexivity).
        exact (exit_status_returns _ _ (memory_profiler_example_returns E Hret)).
      + right. split; [discriminate|].
        rewrite (main_calls_function E _ "memory_profiler_eficient_example"
                   (memory_profiler_eficient_example E) Hne)
          by (lookup_global; reflexivity).
        exact (exit_status_returns _ _ (memory_profiler_eficient_example_returns E Hret)).
      + right. split; [discriminate|].
        rewrite (main_calls_function E _ "psutil_rss_example" (psutil_rss_example E) Hne)
          by (lookup_global; reflexivity).
        exact (exit_status_returns _ _ (psutil_rss_example_returns E)).
      + right. split; [discriminate|].
        rewrite (main_calls_function E _ "_list_functions" _list_functions Hne)
          by (lookup_global; reflexivity).
        reflexivity.
    - right. split.
      + intros [= ->]. apply Hout. unfold defined_functions, fns. set_solver.
      + rewrite (main_not_found E name Hne (callable_elsewhere E name Hout (Hstart name))).
        reflexivity. }
  destruct Hcases as [[Hf Hs] | [Hf Hs]]; rewrite Hs.
  - split; split.
    + intros _. exact Hf.
    + intros _. reflexivity.
    + intros H. discriminate H.
    + intros Hne. exfalso. exact (Hne Hf).
  - split; split.
    + intros H. discriminate H.
    + intros H. exfalso. exact (Hf H).
    + intros _. exact Hf.
    + intros _. reflexivity.
Qed.

Lemma script_env_no_callable_at_start : no_callable_at_start script_env.
Proof.
  intros name. unfold script_env. cbn [initial_globals].
  rewrite lookup_fmap. destruct (_ !! name); reflexivity.
Qed.

Lemma script_env_profiler_returns : profiler_returns script_env.
Proof. intros profile Himport. discriminate Himport. Qed.

Lemma only_assertion_example_fails_witness :
  (exit_status (main script_env (Some "timing_example")) = 1
   ↔ Some "timing_example" = Some "assertion_example")
  ∧ (exit_status (main script_env (Some "timing_example")) = 0
     ↔ Some "timing_example" ≠ Some "assertion_example").
Proof.
  exact (only_assertion_example_fails script_env (Some "timing_example")
           script_env_no_callable_at_start script_env_profiler_returns).
Defined.

(** X6: run directly, a request reaches the call branch exactly when it
    names one of the eight functions the module defines, the not-found branch
    exactly when it is a non-empty name that is not one of them, and the list
    branch exactly when it is empty. *)
Theorem branch_taken_by_name (E : env) (name : string) :
  no_callable_at_start E →
  ((∃ fn, select E (Some name) = CallBranch fn) ↔ name ∈ defined_functions)
  ∧ (select E (Some name) = NotFoundBranch name
     ↔ name ≠ "" ∧ name ∉ defined_functions)
  ∧ (select E (Some name) = ListBranch ↔ name = "").
Proof.
  intros Hstart.
  destruct (decide (name = "")) as [-> | Hne].
  - assert (Hsel : select E (Some "") = ListBranch) by reflexivity.
    rewrite Hsel. repeat split; try discriminate; try tauto.
    + intros [fn Hfn]. discriminate Hfn.
    + intros Hin. exfalso. exact (function_names_nonempty "" Hin eq_refl).
  - destruct (decide (name ∈ defined_functions)) as [Hin | Hout].
    + rewrite (select_callable E name Hne (callable_defined_function E name Hin)).
      repeat split; try discriminate; try tauto; eauto.
    + rewrite (select_not_callable E name Hne
                 (callable_elsewhere E name Hout (Hstart name))).
      repeat split; try discriminate; try tauto.
      intros [fn Hfn]. discriminate Hfn.
Qed.

Lemma branch_taken_by_name_witness :
  ((∃ fn, select script_env (Some "psutil_rss_example") = CallBranch fn)
   ↔ "psutil_rss_example" ∈ defined_functions)
  ∧ (select script_env (Some "psutil_rss_example") = NotFoundBranch "psutil_rss_example"
     ↔ "psutil_rss_example" ≠ "" ∧ "psutil_rss_example" ∉ defined_functions)
  ∧ (select script_env (Some "psutil_rss_example") = ListBranch
     ↔ "psutil_rss_example" = "").
Proof.
  exact (branch_taken_by_name script_env "psutil_rss_example"
           script_env_no_callable_at_start).
Defined.




(** ** The profiling report, continued *)

Lemma top_entries_sorted (E : env) :
  map_Forall (λ _ st, is_nan (st_ct st) = false) (aggregated_profile E) →
  StronglySorted (in_order (λ a b, Pstats.compare_cumtime a b <? 0))
    (stable_sort (λ a b, Pstats.compare_cumtime a b <? 0)
       (map_to_list (aggregated_profile E))).
Proof.
  intros Hnan.
  apply (stable_sort_sorted _ (λ p, is_nan (st_ct p.2) = false)).
  - intros a b. rewrite !compare_cumtime_before. apply float_ltb_asym.
  - intros a b c Ha Hb Hc. rewrite !compare_cumtime_before.
    apply float_not_ltb_trans; assumption.
  - apply map_Forall_to_list in Hnan.
    eapply Forall_impl; [exact Hnan|]. intros [f st] Hst. exact Hst.
Qed.

Lemma StronglySorted_across {A} (R : A → A → Prop) (l1 l2 : list A) (x1 x2 : A) :
  StronglySorted R (l1 ++ l2) → x1 ∈ l1 → x2 ∈ l2 → R x1 x2.
Proof.
  intros Hs H1 H2. induction l1 as [|y l1 IH]; [by apply elem_of_nil in H1|].
  apply StronglySorted_inv in Hs as [Hs Hy].
  apply elem_of_cons in H1 as [-> | H1]; [|exact (IH Hs H1)].
  rewrite Forall_forall in Hy. apply Hy, elem_of_app. right. exact H2.
Qed.

(** X8: the rows of the report are the top of the profile.  There are ten
    of them, or as many as the profile has functions; each is a function of
    the profile with its own cumulative time, none twice; and a function that
    is left out has a cumulative time that no printed row is below. *)
Theorem cprofile_report_is_the_top (E : env) :
  map_Forall (λ _ st, is_nan (st_ct st) = false) (aggregated_profile E) →
  length (report_rows (cprofile_example E)) = (10 `min` size (aggregated_profile E))%nat
  ∧ (∀ row, row ∈ report_rows (cprofile_example E) →
            ∃ st, aggregated_profile E !! row.1 = Some st ∧ row.2 = st_ct st)
  ∧ NoDup (report_rows (cprofile_example E)).*1
  ∧ (∀ f st, aggregated_profile E !! f = Some st →
             (f, st_ct st) ∈ report_rows (cprofile_example E)
             ∨ ∀ row, row ∈ report_rows (cprofile_example E) →
                      (row.2 <? st_ct st)%float = false).
Proof.
  intros Hnan. pose proof (top_entries_sorted E Hnan) as Hsorted.
  destruct (cprofile_example_rows E) as [_ ->].
  unfold top_entries. fold (aggregated_profile E).
  set (before := λ a b : func * func_stat, Pstats.compare_cumtime a b <? 0) in *.
  set (sorted := stable_sort before (map_to_list (aggregated_profile E))) in *.
  assert (Hperm : sorted ≡ₚ map_to_list (aggregated_profile E))
    by apply stable_sort_perm.
  split; [|split; [|split]].
  - rewrite length_fmap, length_take, Hperm, length_map_to_list. reflexivity.
  - intros row Hrow. apply list_elem_of_fmap in Hrow as (p & -> & Hp).
    exists p.2. split; [|reflexivity].
    apply subseteq_take in Hp. rewrite Hperm in Hp.
    apply elem_of_map_to_list' in Hp. exact Hp.
  - assert (Hfst : ∀ l : list (func * func_stat),
               ((λ p, (p.1, st_ct p.2)) <$> l).*1 = l.*1).
    { induction l as [|p l IH]; [reflexivity|]. cbn. f_equal. exact IH. }
    rewrite Hfst, fmap_take.
    eapply sublist_NoDup; [|apply sublist_take].
    rewrite Hperm. apply NoDup_fst_map_to_list.
  - intros f st Hlook.
    assert (Hin : (f, st) ∈ take 10 sorted ++ drop 10 sorted).
    { rewrite take_drop, Hperm. apply elem_of_map_to_list, Hlook. }
    apply elem_of_app in Hin as [Htop | Hrest].
    + left. apply list_elem_of_fmap. exists (f, st). split; [reflexivity | exact Htop].
    + right. intros row Hrow. apply list_elem_of_fmap in Hrow as (p & -> & Hp).
      rewrite <- (take_drop 10 sorted) in Hsorted.
      pose proof (StronglySorted_across _ _ _ _ _ Hsorted Hp Hrest) as Hord.
      unfold in_order, before in Hord. rewrite compare_cumtime_before in Hord.
      exact Hord.
Qed.

Lemma cprofile_report_is_the_top_witness :
  length (report_rows (cprofile_example profiling_env))
  = (10 `min` size (aggregated_profile profiling_env))%nat
  ∧ NoDup (report_rows (cprofile_example profiling_env)).*1.
Proof.
  assert (Hnan : map_Forall (λ _ st, is_nan (st_ct st) = false)
                   (aggregated_profile profiling_env)).
  { apply map_Forall_to_list. vm_compute. repeat constructor. }
  destruct (cprofile_report_is_the_top profiling_env Hnan) as (Hlen & _ & Hnodup & _).
  split; [exact Hlen | exact Hnodup].
Defined.

(** ** Failures while the profiled work runs *)

(** X9: only the import is guarded.  When memory_profiler is installed and
    the decorated [work] raises, neither routine catches it: the exception
    reaches the caller after what the profiler printed, and no result line
    follows. *)
Theorem profiled_work_failure_propagates (E : env) (profile : Py Z → Py Z) :
  import_memory_profiler E = inr profile →
  (∀ tr e, profile (mret work_lists) = (tr, Raise e) →
           memory_profiler_example E
           = (ECall "memory_profiler" "profile" :: tr, Raise e))
  ∧ (∀ tr e, profile (mret work_single_loop) = (tr, Raise e) →
             memory_profiler_eficient_example E
             = (ECall "memory_profiler" "profile" :: tr, Raise e)).
Proof.
  intros Himport. split; intros tr e Hrun.
  - unfold memory_profiler_example, from_memory_profiler_import_profile.
    rewrite Himport. rewrite work_lists_value in Hrun |- *.
    simpl. rewrite Hrun. reflexivity.
  - unfold memory_profiler_eficient_example, from_memory_profiler_import_profile.
    rewrite Himport. rewrite work_single_loop_value in Hrun |- *.
    simpl. rewrite Hrun. reflexivity.
Qed.

Lemma profiled_work_failure_propagates_witness :
  memory_profiler_example failing_profiler_env
  = ([ECall "memory_profiler" "profile";
      EPrint [VStr "Line #    Mem usage    Increment"]],
     Raise (OtherException "MemoryError"))
  ∧ memory_profiler_eficient_example failing_profiler_env
    = ([ECall "memory_profiler" "profile";
        EPrint [VStr "Line #    Mem usage    Increment"]],
       Raise (OtherException "MemoryError")).
Proof.
  destruct (profiled_work_failure_propagates failing_profiler_env _ eq_refl)
    as [Hlists Hloop].
  split.
  - exact (Hlists _ _ eq_refl).
  - exact (Hloop _ _ eq_refl).
Defined.

(** ** The duration that [timing_example] prints *)

Lemma digits2_pos_bounds (m : positive) :
  2 ^ (Z.pos (digits2_pos m) - 1) ≤ Z.pos m < 2 ^ Z.pos (digits2_pos m).
Proof.
  induction m as [m IH | m IH |]; simpl digits2_pos;
    rewrite ?Pos2Z.inj_succ;
    try (replace (Z.succ (Z.pos (digits2_pos m)) - 1)
           with (Z.succ (Z.pos (digits2_pos m) - 1)) by lia;
         rewrite !Z.pow_succ_r by lia; lia).
  simpl. lia.
Qed.

Lemma iter_xO_value (m d : positive) :
  Z.pos (Pos.iter xO m d) = Z.pos m * 2 ^ Z.pos d.
Proof.
  induction d as [|d IH] using Pos.peano_ind.
  - simpl. lia.
  - rewrite Pos.iter_succ, Pos2Z.inj_succ, Z.pow_succ_r by lia.
    rewrite Pos2Z.inj_xO, IH. lia.
Qed.

Lemma shl_align_value (m : positive) (e ez : Z) :
  ez ≤ e → Z.pos (shl_align m e ez).1 = Z.pos m * 2 ^ (e - ez).
Proof.
  intros Hle. unfold shl_align.
  destruct (ez - e) as [|d|d] eqn:Hd; simpl.
  - replace (e - ez) with 0 by lia. lia.
  - lia.
  - rewrite iter_xO_value. f_equal. f_equal. lia.
Qed.

(** Of two valid mantissas the one with the larger exponent, or with the
    same exponent and the larger digits, is the larger once both are aligned. *)
Lemma aligned_mantissa_le (m1 m2 : positive) (e1 e2 : Z) :
  bounded prec emax m1 e1 = true →
  bounded prec emax m2 e2 = true →
  e1 < e2 ∨ (e1 = e2 ∧ Z.pos m1 ≤ Z.pos m2) →
  Z.pos (shl_align m1 e1 (Z.min e1 e2)).1 ≤ Z.pos (shl_align m2 e2 (Z.min e1 e2)).1.
Proof.
  unfold bounded, canonical_mantissa, fexp, SpecFloat.emin, prec, emax.
  intros [Hc1 _]%andb_true_iff [Hc2 _]%andb_true_iff Hord.
  apply Z.eqb_eq in Hc1, Hc2.
  rewrite !shl_align_value by lia.
  destruct Hord as [Hlt | [-> Hle]].
  - replace (Z.min e1 e2) with e1 by lia.
    replace (e1 - e1) with 0 by lia.
    pose proof (digits2_pos_bounds m1) as [_ Hm1].
    pose proof (digits2_pos_bounds m2) as [Hm2 _].
    assert (Hd1 : Z.pos (digits2_pos m1) ≤ 53) by lia.
    assert (Hd2 : Z.pos (digits2_pos m2) = 53) by lia.
    rewrite Hd2 in Hm2.
    change (2 ^ (53 - 1)) with 4503599627370496 in Hm2.
    assert (Hm1' : Z.pos m1 < 9007199254740992).
    { eapply Z.lt_le_trans; [exact Hm1|].
      change 9007199254740992 with (2 ^ 53). apply Z.pow_le_mono_r; lia. }
    assert (Hpow : 2 ^ 1 ≤ 2 ^ (e2 - e1)) by (apply Z.pow_le_mono_r; lia).
    change (2 ^ 1) with 2 in Hpow. change (2 ^ 0) with 1. nia.
  - replace (Z.min e2 e2) with e2 by lia.
    replace (e2 - e2) with 0 by lia. change (2 ^ 0) with 1. lia.
Qed.

Lemma binary_normalize_nonneg (prec emax m e : Z) :
  0 ≤ m → sf_nonneg (binary_normalize prec emax m e false) = true.
Proof.
  intros Hm. destruct m as [|m|m]; simpl; [reflexivity | | lia].
  apply binary_round_nonneg.
Qed.

Lemma signed_difference_nonneg (sp sq : bool) (p q : positive) :
  (sp = true ∧ sq = false)
  ∨ (sp = false ∧ sq = false ∧ Z.pos p ≤ Z.pos q)
  ∨ (sp = true ∧ sq = true ∧ Z.pos q ≤ Z.pos p) →
  0 ≤ cond_Zopp sq (Z.pos q) - cond_Zopp sp (Z.pos p).
Proof.
  intros [[-> ->] | [(-> & -> & H) | (-> & -> & H)]]; simpl; lia.
Qed.

Lemma SFsub_nonneg_of_le (x y : spec_float) :
  valid_binary x = true → valid_binary y = true →
  sf_finite x = true →
  SFleb x y = true →
  sf_nonneg (SF64sub y x) = true.
Proof.
  unfold SF64sub, SFleb.
  destruct x as [sx | sx | | sx mx ex], y as [sy | sy | | sy my ey];
    simpl; intros Hx Hy Hfin Hle; try discriminate.
  - destruct sy, sx; reflexivity.
  - destruct sy; [discriminate | reflexivity].
  - destruct sy; [discriminate | reflexivity].
  - destruct sx; [reflexivity | discriminate].
  - destruct sy; [discriminate | reflexivity].
  - apply binary_normalize_nonneg.
    change (Pos.compare_cont Eq mx my) with (Pos.compare mx my) in Hle.
    apply (signed_difference_nonneg sx sy).
    destruct sx, sy; try discriminate.
    + right. right. split; [reflexivity|]. split; [reflexivity|].
      assert (Hord : ey < ex ∨ (ey = ex ∧ Z.pos my ≤ Z.pos mx)).
      { destruct (Z.compare_spec ex ey), (Pos.compare_spec mx my);
          simpl in Hle; try discriminate; lia. }
      exact (aligned_mantissa_le my mx ey ex Hy Hx Hord).
    + left. split; reflexivity.
    + right. left. split; [reflexivity|]. split; [reflexivity|].
      assert (Hord : ex < ey ∨ (ex = ey ∧ Z.pos mx ≤ Z.pos my)).
      { destruct (Z.compare_spec ex ey), (Pos.compare_spec mx my);
          simpl in Hle; try discriminate; lia. }
      pose proof (aligned_mantissa_le mx my ex ey Hx Hy Hord) as Hal.
      rewrite Z.min_comm in Hal. exact Hal.
Qed.

Lemma is_finite_spec (a : float) :
  is_finite a = true → sf_finite (Prim2SF a) = true.
Proof.
  unfold is_finite, is_nan, is_infinity.
  rewrite !FloatAxioms.eqb_spec, FloatAxioms.abs_spec, SFeqb_refl_not_nan.
  change (Prim2SF infinity) with (S754_infinity false).
  destruct (Prim2SF a) as [s | s | | s m e]; simpl; try reflexivity; discriminate.
Qed.

Lemma float_sub_nonneg (a b : float) :
  is_finite a = true → (a <=? b)%float = true →
  assertion_guard (b - a)%float = true.
Proof.
  intros Hfin%is_finite_spec Hle. rewrite FloatAxioms.leb_spec in Hle.
  rewrite assertion_guard_spec, FloatAxioms.sub_spec.
  apply SFsub_nonneg_of_le; [apply Prim2SF_valid | apply Prim2SF_valid | exact Hfin | exact Hle].
Qed.

(** X10: with a clock that does not go back, the duration printed is never
    negative.  If the first reading is finite and the second is not below
    it, [timing_example] reads the clock twice, prints one line with the
    second reading minus the first, and that difference is neither below
    zero nor NaN. *)
Theorem timing_prints_nonnegative_duration (E : env) :
  is_finite (perf_counter E 0) = true →
  (perf_counter E 0 <=? perf_counter E 1)%float = true →
  timing_example E
  = ([ ECall "time" "perf_counter"; ECall "time" "perf_counter";
       EPrint [VFormat [FLit "Temps: ";
                        FFixed 6 (perf_counter E 1 - perf_counter E 0)%float;
                        FLit " s"]] ],
     Ret tt)
  ∧ (0 <=? perf_counter E 1 - perf_counter E 0)%float = true
  ∧ is_nan (perf_counter E 1 - perf_counter E 0)%float = false
  ∧ (perf_counter E 1 - perf_counter E 0 <? 0)%float = false.
Proof.
  intros Hfin Hle. split; [reflexivity|].
  pose proof (float_sub_nonneg _ _ Hfin Hle) as Hguard.
  split; [exact Hguard|].
  rewrite assertion_guard_spec, sf_nonneg_tests in Hguard.
  apply andb_true_iff in Hguard as [Hnan Hneg].
  split; apply negb_true_iff; assumption.
Qed.

Lemma timing_prints_nonnegative_duration_witness :
  timing_example script_env
  = ([ ECall "time" "perf_counter"; ECall "time" "perf_counter";
       EPrint [VFormat [FLit "Temps: ";
                        FFixed 6 (perf_counter script_env 1
                                  - perf_counter script_env 0)%float;
                        FLit " s"]] ],
     Ret tt)
  ∧ (0 <=? perf_counter script_env 1 - perf_counter script_env 0)%float = true.
Proof.
  destruct (timing_prints_nonnegative_duration script_env eq_refl eq_refl)
    as (Hrun & Hge & _).
  split; [exact Hrun | exact Hge].
Defined.
